(** * The session and view-state store of the PDF viewer front end

    Shallow embedding of [useStore] (the zustand store of the front end, in its
    most recent revision: the one with [isLoading], [sessions] and the PDF
    modal slice), followed by theorems about its operations.

    A store operation is a JavaScript closure over zustand's [set] and [get].
    It is embedded as a computation in a small monad, [Store], which threads
    the store state, records every state that [set] publishes to subscribers,
    and can end abruptly with a JavaScript exception. *)

From Stdlib Require Import ZArith String Ascii List Bool Lia.
Import ListNotations.
Local Open Scope string_scope.
Local Open Scope Z_scope.
Local Open Scope list_scope.

(** ** JavaScript values *)

(** The arguments of the store operations are untyped.  Numbers are kept to
    the integer-valued ones and [NaN]; an object is a reference together with
    its own properties, and is compared by reference. *)
#[local] Unset Elimination Schemes.
Inductive value : Type :=
| VUndefined
| VNull
| VBool (b : bool)
| VNum (n : Z)
| VNaN
| VStr (s : string)
| VObj (ref : nat) (props : list (string * value)).
#[local] Set Elimination Schemes.

(** [a === b] *)
Definition strict_eq (a b : value) : bool :=
  match a, b with
  | VUndefined, VUndefined => true
  | VNull, VNull => true
  | VBool x, VBool y => Bool.eqb x y
  | VNum x, VNum y => Z.eqb x y
  | VStr x, VStr y => String.eqb x y
  | VObj r _, VObj r' _ => Nat.eqb r r'
  | _, _ => false
  end.

(** [!!v] *)
Definition to_boolean (v : value) : bool :=
  match v with
  | VUndefined | VNull | VNaN => false
  | VBool b => b
  | VNum n => negb (Z.eqb n 0)
  | VStr s => negb (String.eqb s "")
  | VObj _ _ => true
  end.

Inductive exn : Type := TypeError.

Inductive completion (A : Type) : Type :=
| Normal (a : A)
| Abrupt (e : exn).
Arguments Normal {A} a.
Arguments Abrupt {A} e.

(** [file.name]: reading a property of [undefined] or [null] throws; a
    primitive has no [name]; an object answers with its own property. *)
Definition get_name (file : value) : completion value :=
  match file with
  | VUndefined | VNull => Abrupt TypeError
  | VObj _ props =>
      Normal match find (fun kv => String.eqb (fst kv) "name") props with
             | Some kv => snd kv
             | None => VUndefined
             end
  | _ => Normal VUndefined
  end.

(** A default parameter [(x = d)] takes [d] when the argument is omitted,
    that is, [undefined]. *)
Definition default_param (arg d : value) : value :=
  match arg with
  | VUndefined => d
  | _ => arg
  end.

(** [s.split(sep)[0]]: the part of [s] before the first [sep]. *)
Fixpoint split_head (sep : ascii) (s : string) : string :=
  match s with
  | EmptyString => EmptyString
  | String c s' => if Ascii.eqb c sep then EmptyString else String c (split_head sep s')
  end.

(** ** The store state *)

Record FileRecord : Type := mkFile { id : value; name : value; date : value }.

Record Session : Type := mkSession { fileId : value; data : value }.

Record state : Type := mkState {
  activeTab : value;
  isLoading : value;
  files : list FileRecord;
  sessions : list Session;
  currentFile : value;
  sidebarOpen : value;
  currentPage : value;
  selectedNodeId : value;
  pdfViewerOpen : value;
  pdfViewerUrl : value;
  pdfViewerTitle : value;
  pdfViewerPage : value
}.

(** The initial values written in the object passed to [create]. *)
Definition initial : state := {|
  activeTab := VStr "summary";
  isLoading := VBool false;
  files := [];
  sessions := [];
  currentFile := VNull;
  sidebarOpen := VBool true;
  currentPage := VNum 1;
  selectedNodeId := VNull;
  pdfViewerOpen := VBool false;
  pdfViewerUrl := VNull;
  pdfViewerTitle := VNull;
  pdfViewerPage := VNum 1
|}.

(** One [key: value] entry of the object literal handed to [set]. *)
Inductive slot : Type :=
| ActiveTab (v : value)
| IsLoading (v : value)
| Files (l : list FileRecord)
| Sessions (l : list Session)
| CurrentFile (v : value)
| SidebarOpen (v : value)
| CurrentPage (v : value)
| SelectedNodeId (v : value)
| PdfViewerOpen (v : value)
| PdfViewerUrl (v : value)
| PdfViewerTitle (v : value)
| PdfViewerPage (v : value).

Definition assign (s : state) (e : slot) : state :=
  let (tab, ld, fs, ss, cf, sb, cp, nd, po, pu, pt, pp) := s in
  match e with
  | ActiveTab v => mkState v ld fs ss cf sb cp nd po pu pt pp
  | IsLoading v => mkState tab v fs ss cf sb cp nd po pu pt pp
  | Files l => mkState tab ld l ss cf sb cp nd po pu pt pp
  | Sessions l => mkState tab ld fs l cf sb cp nd po pu pt pp
  | CurrentFile v => mkState tab ld fs ss v sb cp nd po pu pt pp
  | SidebarOpen v => mkState tab ld fs ss cf v cp nd po pu pt pp
  | CurrentPage v => mkState tab ld fs ss cf sb v nd po pu pt pp
  | SelectedNodeId v => mkState tab ld fs ss cf sb cp v po pu pt pp
  | PdfViewerOpen v => mkState tab ld fs ss cf sb cp nd v pu pt pp
  | PdfViewerUrl v => mkState tab ld fs ss cf sb cp nd po v pt pp
  | PdfViewerTitle v => mkState tab ld fs ss cf sb cp nd po pu v pp
  | PdfViewerPage v => mkState tab ld fs ss cf sb cp nd po pu pt v
  end.

(** [Object.assign({}, state, partial)] *)
Definition merge (s : state) (partial : list slot) : state :=
  fold_left assign partial s.

(** ** The store monad *)

Record outcome (A : Type) : Type := mkOutcome {
  result : completion A;
  final : state;
  notified : list state
}.
Arguments mkOutcome {A} _ _ _.
Arguments result {A} _.
Arguments final {A} _.
Arguments notified {A} _.

Definition Store (A : Type) : Type := state -> outcome A.

Definition ret {A} (a : A) : Store A :=
  fun s => mkOutcome (Normal a) s [].

Definition bind {A B} (m : Store A) (k : A -> Store B) : Store B :=
  fun s =>
    let o := m s in
    match result o with
    | Normal a =>
        let o' := k a (final o) in
        mkOutcome (result o') (final o') (notified o ++ notified o')
    | Abrupt e => mkOutcome (Abrupt e) (final o) (notified o)
    end.

Notation "x <- m ;; k" := (bind m (fun x => k))
  (at level 61, m at next level, right associativity).
Notation "m ;; k" := (bind m (fun _ => k))
  (at level 61, right associativity).

(** zustand's [get()] *)
Definition get : Store state :=
  fun s => mkOutcome (Normal s) s [].

(** zustand's [set(fn)]: [fn] is applied to the current state; the object it
    returns is merged into the state and the subscribers are notified once.
    When [fn] throws, nothing is merged and nobody is notified. *)
Definition set_with (fn : state -> completion (list slot)) : Store value :=
  fun s =>
    match fn s with
    | Normal partial =>
        let s' := merge s partial in
        mkOutcome (Normal VUndefined) s' [s']
    | Abrupt e => mkOutcome (Abrupt e) s []
    end.

(** zustand's [set(partial)] with an object literal. *)
Definition set (partial : list slot) : Store value :=
  set_with (fun _ => Normal partial).

(** ** What an upload reads from its environment *)

(** [random36] stands for the string [Math.random().toString(36)] and
    [isoNow] for [new Date().toISOString()]. *)
Record env : Type := mkEnv { random36 : string; isoNow : string }.

(** ** The operations of [useStore] *)

Definition setActiveTab (tab : value) : Store value :=
  set [ActiveTab tab].

Definition setLoading (status : value) : Store value :=
  set [IsLoading status].

(** [substring(2, 9)] keeps the characters at positions 2 to 8. *)
Definition uploadFile (file : value) (e : env) : Store value :=
  let id := VStr (substring 2 7 (random36 e)) in
  set_with (fun state =>
    match get_name file with
    | Normal nm =>
        Normal [Files (mkFile id nm (VStr (split_head "T"%char (isoNow e)))
                         :: files state)]
    | Abrupt x => Abrupt x
    end) ;;
  ret id.

Definition addSession (fileId data : value) : Store value :=
  set_with (fun state =>
    Normal [Sessions (sessions state ++ [mkSession fileId data]);
            CurrentFile data;
            CurrentPage (VNum 1)]).

(** The predicate [(s) => s.fileId === fileId] handed to [find]. *)
Definition has_fileId (key : value) (s : Session) : bool :=
  strict_eq (fileId s) key.

Definition loadSession (fileId : value) : Store value :=
  st <- get ;;
  match find (has_fileId fileId) (sessions st) with
  | Some session =>
      set [CurrentFile (data session); CurrentPage (VNum 1)] ;;
      ret VUndefined
  | None => ret VUndefined
  end.

Definition setCurrentFile (data : value) : Store value :=
  set [CurrentFile data; CurrentPage (VNum 1)].

Definition toggleSidebar : Store value :=
  set_with (fun state =>
    Normal [SidebarOpen (VBool (negb (to_boolean (sidebarOpen state))))]).

Definition setCurrentPage (page : value) : Store value :=
  set [CurrentPage page].

Definition setSelectedNodeId (id : value) : Store value :=
  set [SelectedNodeId id].

Definition openPDFViewer (url title page : value) : Store value :=
  let page := default_param page (VNum 1) in
  set [PdfViewerOpen (VBool true);
       PdfViewerUrl url;
       PdfViewerTitle title;
       PdfViewerPage page].

Definition closePDFViewer : Store value :=
  set [PdfViewerOpen (VBool false);
       PdfViewerUrl VNull;
       PdfViewerTitle VNull;
       PdfViewerPage (VNum 1)].

(** ** Calls on the store and their runs *)

Inductive call : Type :=
| SetActiveTab (tab : value)
| SetLoading (status : value)
| UploadFile (file : value) (e : env)
| AddSession (fileId data : value)
| LoadSession (fileId : value)
| SetCurrentFile (data : value)
| ToggleSidebar
| SetCurrentPage (page : value)
| SetSelectedNodeId (id : value)
| OpenPDFViewer (url title page : value)
| ClosePDFViewer.

Definition invoke (c : call) : Store value :=
  match c with
  | SetActiveTab tab => setActiveTab tab
  | SetLoading status => setLoading status
  | UploadFile file e => uploadFile file e
  | AddSession fileId data => addSession fileId data
  | LoadSession fileId => loadSession fileId
  | SetCurrentFile data => setCurrentFile data
  | ToggleSidebar => toggleSidebar
  | SetCurrentPage page => setCurrentPage page
  | SetSelectedNodeId id => setSelectedNodeId id
  | OpenPDFViewer url title page => openPDFViewer url title page
  | ClosePDFViewer => closePDFViewer
  end.

(** The state after a sequence of calls made one after the other by event
    handlers; a call that throws leaves the state as it found it and the next
    handler runs on. *)
Definition run (cs : list call) (s : state) : state :=
  fold_left (fun st c => final (invoke c st)) cs s.

(** What each call of a sequence returned or threw, in order. *)
Fixpoint results (cs : list call) (s : state) : list (call * completion value) :=
  match cs with
  | [] => []
  | c :: cs' => let o := invoke c s in (c, result o) :: results cs' (final o)
  end.

(** The identifiers handed back by the [uploadFile] calls of a run. *)
Definition returned_id (r : call * completion value) : option value :=
  match r with
  | (UploadFile _ _, Normal v) => Some v
  | _ => None
  end.

Fixpoint collect {A B} (f : A -> option B) (l : list A) : list B :=
  match l with
  | [] => []
  | a :: l' => match f a with
               | Some b => b :: collect f l'
               | None => collect f l'
               end
  end.

Definition issued_ids (cs : list call) (s : state) : list value :=
  collect returned_id (results cs s).

(** The slice of the random draw that an [uploadFile] call turns into an
    identifier, for the calls that get as far as returning one. *)
Definition draw_slice (c : call) : option value :=
  match c with
  | UploadFile file e =>
      match get_name file with
      | Normal _ => Some (VStr (substring 2 7 (random36 e)))
      | Abrupt _ => None
      end
  | _ => None
  end.

(** ** Predicates of the specification *)

(** A 1-based page number. *)
Definition page_ge_1 (v : value) : bool :=
  match v with
  | VNum n => 1 <=? n
  | _ => false
  end.

(** The page argument of a [setCurrentPage] call is a page number; any other
    call passes. *)
Definition page_arg_ok (c : call) : bool :=
  match c with
  | SetCurrentPage page => page_ge_1 page
  | _ => true
  end.

(** The overlay slice: [open], [url], [title], [page]. *)
Definition overlay (s : state) : value * value * value * value :=
  (pdfViewerOpen s, pdfViewerUrl s, pdfViewerTitle s, pdfViewerPage s).

(** Everything [addSession] is not meant to touch. *)
Definition outside_document (s : state) :=
  (activeTab s, isLoading s, files s, sidebarOpen s, selectedNodeId s, overlay s).

(** ** Reading a run *)

(** [v == null]: the two values whose properties cannot be read. *)
Definition nullish (v : value) : bool :=
  match v with
  | VUndefined | VNull => true
  | _ => false
  end.

(** The session an [addSession] call appends. *)
Definition added_session (c : call) : option Session :=
  match c with
  | AddSession fileId data => Some (mkSession fileId data)
  | _ => None
  end.

(** The record an [uploadFile] call puts in front of [files], when it gets
    that far. *)
Definition uploaded_record (c : call) : option FileRecord :=
  match c with
  | UploadFile file e =>
      match get_name file with
      | Normal nm =>
          Some (mkFile (VStr (substring 2 7 (random36 e))) nm
                  (VStr (split_head "T"%char (isoNow e))))
      | Abrupt _ => None
      end
  | _ => None
  end.

(** The calls that name [currentFile] in what they hand to [set]. *)
Definition is_switch (c : call) : bool :=
  match c with
  | AddSession _ _ | LoadSession _ | SetCurrentFile _ => true
  | _ => false
  end.

Definition is_setCurrentFile (c : call) : bool :=
  match c with
  | SetCurrentFile _ => true
  | _ => false
  end.

Definition is_overlay_call (c : call) : bool :=
  match c with
  | OpenPDFViewer _ _ _ | ClosePDFViewer => true
  | _ => false
  end.

Definition is_toggle (c : call) : bool :=
  match c with
  | ToggleSidebar => true
  | _ => false
  end.

(** The calls that read a property of [undefined] or [null]. *)
Definition reads_nullish (c : call) : bool :=
  match c with
  | UploadFile file _ => nullish file
  | _ => false
  end.

(** The page argument of an [openPDFViewer] call is left out or is a page
    number; any other call passes. *)
Definition open_page_ok (c : call) : bool :=
  match c with
  | OpenPDFViewer _ _ page => page_ge_1 (default_param page (VNum 1))
  | _ => true
  end.

(** Every field but [files]. *)
Definition outside_files (s : state) :=
  (activeTab s, isLoading s, sessions s, currentFile s, sidebarOpen s,
   currentPage s, selectedNodeId s, overlay s).

(** The current file is the initial [null] or the data of a stored session. *)
Definition null_or_cached (s : state) : Prop :=
  currentFile s = VNull \/ In (currentFile s) (map data (sessions s)).

(** The overlay is open, or it is closed and holds nothing. *)
Definition closed_is_reset (s : state) : Prop :=
  pdfViewerOpen s = VBool true \/
  overlay s = (VBool false, VNull, VNull, VNum 1).

Definition is_setCurrentPage (c : call) : bool :=
  match c with
  | SetCurrentPage _ => true
  | _ => false
  end.

(** Every field but the four of the overlay. *)
Definition outside_overlay (s : state) :=
  (activeTab s, isLoading s, files s, sessions s,
   currentFile s, sidebarOpen s, currentPage s, selectedNodeId s).

(** Does the string contain the character? *)
Fixpoint occurs (c : ascii) (s : string) : bool :=
  match s with
  | EmptyString => false
  | String a s' => Ascii.eqb a c || occurs c s'
  end.

(** ** The toolbar *)

(** What [Toolbar] renders: the loading screen while [isLoading] is truthy,
    else the welcome logo while [currentFile] is falsy, else the bar with the
    export button. *)
Inductive screen : Type := LoadingScreen | Welcome | Bar.

Definition Toolbar (s : state) : screen :=
  if to_boolean (isLoading s) then LoadingScreen
  else if negb (to_boolean (currentFile s)) then Welcome
  else Bar.

(** [handleExportJSON]: nothing without a current file; otherwise a download
    named [document_data.json] of the current file (the value that goes
    through [JSON.stringify] is kept, not its text). *)
Definition handleExportJSON (s : state) : option (string * value) :=
  if negb (to_boolean (currentFile s)) then None
  else Some ("document_data.json", currentFile s).

(** ** The image list of [ImagesViewer] *)

Module ImagesViewer.

(** The viewer looks inside the document, so here it is a JSON tree as the
    extraction backend sends it. *)
#[local] Unset Elimination Schemes.
Inductive json : Type :=
| JUndefined
| JNull
| JBool (b : bool)
| JNum (n : Z)
| JStr (s : string)
| JArr (items : list json)
| JObj (props : list (string * json)).
#[local] Set Elimination Schemes.

Definition is_nullish (j : json) : bool :=
  match j with
  | JUndefined | JNull => true
  | _ => false
  end.

(** [x.k] for [x] that is neither [undefined] nor [null], and [k] one of
    [pages], [images], [page]: an object answers with its own property,
    anything else has none. *)
Definition lookup (x : json) (k : string) : json :=
  match x with
  | JObj props =>
      match find (fun kv => String.eqb (fst kv) k) props with
      | Some kv => snd kv
      | None => JUndefined
      end
  | _ => JUndefined
  end.

(** [x.k] *)
Definition get_prop (x : json) (k : string) : completion json :=
  if is_nullish x then Abrupt TypeError else Normal (lookup x k).

Record image : Type := mkImage { src : json; page : json }.

(** The callback [(p) => p.images.map((img) => ({ src: img, page: p.page }))]:
    [map] exists on arrays only. *)
Definition page_images (p : json) : completion (list image) :=
  match get_prop p "images" with
  | Abrupt e => Abrupt e
  | Normal (JArr imgs) => Normal (map (fun img => mkImage img (lookup p "page")) imgs)
  | Normal _ => Abrupt TypeError
  end.

(** [pages.flatMap(f)] where [f] returns arrays: the results are joined in
    order, and the first exception ends the traversal. *)
Fixpoint flatMap {A} (f : json -> completion (list A)) (pages : list json)
  : completion (list A) :=
  match pages with
  | [] => Normal []
  | p :: rest =>
      match f p with
      | Abrupt e => Abrupt e
      | Normal xs =>
          match flatMap f rest with
          | Abrupt e => Abrupt e
          | Normal ys => Normal (xs ++ ys)
          end
      end
  end.

(** [currentFile?.pages?.flatMap(...) || []]: each [?.] ends the chain with
    [undefined], which [||] turns into the empty array; an array, even an
    empty one, is truthy and is kept. *)
Definition images (currentFile : json) : completion (list image) :=
  if is_nullish currentFile then Normal []
  else
    let pages := lookup currentFile "pages" in
    if is_nullish pages then Normal []
    else match pages with
         | JArr l => flatMap page_images l
         | _ => Abrupt TypeError
         end.

(** [images.length === 0]: the viewer shows "No images found". *)
Definition shows_empty (currentFile : json) : completion bool :=
  match images currentFile with
  | Normal l => Normal (Nat.eqb (length l) 0)
  | Abrupt e => Abrupt e
  end.

(** A page whose [images] is an array. *)
Definition has_images (p : json) : bool :=
  match p with
  | JObj _ => match lookup p "images" with JArr _ => true | _ => false end
  | _ => false
  end.

Definition images_of (p : json) : list json :=
  match lookup p "images" with
  | JArr imgs => imgs
  | _ => []
  end.

(** A document as the backend shapes it:
    [{ pages: [{ page, images: [...] }, ...] }]. *)
Definition page_entry (e : Z * list string) : json :=
  JObj [("page", JNum (fst e)); ("images", JArr (map JStr (snd e)))].

Definition document (entries : list (Z * list string)) : json :=
  JObj [("pages", JArr (map page_entry entries))].

End ImagesViewer.

(** ** The first revision of the store with sessions *)

(** The earlier [useStore] that already has [sessions], [addSession] and
    [loadSession] but neither [isLoading] nor the PDF modal slice. *)
Module Rev0.

Record state : Type := mkState {
  activeTab : value;
  files : list FileRecord;
  sessions : list Session;
  currentFile : value;
  sidebarOpen : value;
  currentPage : value;
  selectedNodeId : value
}.

Definition initial : state := {|
  activeTab := VStr "summary";
  files := [];
  sessions := [];
  currentFile := VNull;
  sidebarOpen := VBool true;
  currentPage := VNum 1;
  selectedNodeId := VNull
|}.

Definition setActiveTab (tab : value) (s : state) : state :=
  mkState tab (files s) (sessions s) (currentFile s) (sidebarOpen s)
    (currentPage s) (selectedNodeId s).

Definition addSession (fileId data : value) (s : state) : state :=
  mkState (activeTab s) (files s) (sessions s ++ [mkSession fileId data]) data
    (sidebarOpen s) (currentPage s) (selectedNodeId s).

Definition setCurrentFile (data : value) (s : state) : state :=
  mkState (activeTab s) (files s) (sessions s) data (sidebarOpen s)
    (currentPage s) (selectedNodeId s).

Definition loadSession (fileId : value) (s : state) : state :=
  match find (has_fileId fileId) (sessions s) with
  | Some session => setCurrentFile (data session) s
  | None => s
  end.

Definition toggleSidebar (s : state) : state :=
  mkState (activeTab s) (files s) (sessions s) (currentFile s)
    (VBool (negb (to_boolean (sidebarOpen s)))) (currentPage s) (selectedNodeId s).

Definition setCurrentPage (page : value) (s : state) : state :=
  mkState (activeTab s) (files s) (sessions s) (currentFile s) (sidebarOpen s)
    page (selectedNodeId s).

Definition setSelectedNodeId (id : value) (s : state) : state :=
  mkState (activeTab s) (files s) (sessions s) (currentFile s) (sidebarOpen s)
    (currentPage s) id.

(** [substr(2, 9)] takes nine characters from position 2. *)
Definition uploadFile (file : value) (e : env) (s : state) : completion value * state :=
  let id := VStr (substring 2 9 (random36 e)) in
  match get_name file with
  | Normal nm =>
      (Normal id,
       mkState (activeTab s)
         (mkFile id nm (VStr (split_head "T"%char (isoNow e))) :: files s)
         (sessions s) (currentFile s) (sidebarOpen s) (currentPage s)
         (selectedNodeId s))
  | Abrupt x => (Abrupt x, s)
  end.

(** The operations that both revisions have, [uploadFile] apart. *)
Definition shared (c : call) : bool :=
  match c with
  | SetActiveTab _ | AddSession _ _ | LoadSession _ | SetCurrentFile _
  | ToggleSidebar | SetCurrentPage _ | SetSelectedNodeId _ => true
  | _ => false
  end.

(** A call that this revision does not have is passed over. *)
Definition invoke (c : call) (s : state) : state :=
  match c with
  | SetActiveTab tab => setActiveTab tab s
  | AddSession fileId data => addSession fileId data s
  | LoadSession fileId => loadSession fileId s
  | SetCurrentFile data => setCurrentFile data s
  | ToggleSidebar => toggleSidebar s
  | SetCurrentPage page => setCurrentPage page s
  | SetSelectedNodeId id => setSelectedNodeId id s
  | UploadFile file e => snd (uploadFile file e s)
  | _ => s
  end.

Definition run (cs : list call) (s : state) : state :=
  fold_left (fun st c => invoke c st) cs s.

End Rev0.

(** The fields of the current store that the earlier revision has too. *)
Definition earlier_fields (s : state) : Rev0.state :=
  Rev0.mkState (activeTab s) (files s) (sessions s) (currentFile s)
    (sidebarOpen s) (currentPage s) (selectedNodeId s).

(** A state of the earlier revision with its page left out. *)
Definition but_page (s : Rev0.state) :=
  (Rev0.activeTab s, Rev0.files s, Rev0.sessions s, Rev0.currentFile s,
   Rev0.sidebarOpen s, Rev0.selectedNodeId s).

(** Concrete documents and identifiers used in the examples. *)
Definition doc (n : nat) : value :=
  VObj n [("pages", VObj (100 + n) [])].

Definition pdf (nm : string) : value :=
  VObj 0 [("name", VStr nm)].

Example upload_report :
  let o := uploadFile (pdf "report.pdf") (mkEnv "0.4fzyo82mvyr" "2025-11-29T10:15:30.000Z") initial in
  result o = Normal (VStr "4fzyo82") /\
  files (final o) = [mkFile (VStr "4fzyo82") (VStr "report.pdf") (VStr "2025-11-29")] /\
  notified o = [final o].
Proof. repeat split. Qed.

(** A short rendering gives a short identifier: the draw [0.5] renders as
    ["0.i"], and the draw [0] as ["0"], which leaves the empty string. *)
Example upload_short_draws :
  result (uploadFile (pdf "a.pdf") (mkEnv "0.i" "2025-11-29T10:15:30.000Z") initial)
    = Normal (VStr "i") /\
  result (uploadFile (pdf "a.pdf") (mkEnv "0" "2025-11-29T10:15:30.000Z") initial)
    = Normal (VStr "").
Proof. split; reflexivity. Qed.

Example upload_nothing :
  let o := uploadFile VUndefined (mkEnv "0.4fzyo82mvyr" "2025-11-29T10:15:30.000Z") initial in
  result o = Abrupt TypeError /\ final o = initial /\ notified o = [].
Proof. repeat split. Qed.

(** ** General facts about runs *)

Ltac open_state s := destruct s; cbn in *.

Lemma run_cons (c : call) (cs : list call) (s : state) :
  run (c :: cs) s = run cs (final (invoke c s)).
Proof. reflexivity. Qed.

Lemma find_app_hit {A} (p : A -> bool) (l ext : list A) (x : A) :
  find p l = Some x -> find p (l ++ ext) = Some x.
Proof.
  induction l as [|a l IH]; cbn; [discriminate|].
  destruct (p a); [trivial | exact IH].
Qed.

Lemma find_app_miss {A} (p : A -> bool) (l ext : list A) :
  find p l = None -> find p (l ++ ext) = find p ext.
Proof.
  induction l as [|a l IH]; cbn; [trivial|].
  destruct (p a); [discriminate | exact IH].
Qed.

Lemma find_existsb {A} (p : A -> bool) (l : list A) :
  existsb p l = true <-> exists x, find p l = Some x.
Proof.
  induction l as [|a l IH]; cbn.
  - split; [discriminate | intros [x H]; discriminate].
  - destruct (p a); cbn; [split; eauto | exact IH].
Qed.

Lemma find_none_existsb {A} (p : A -> bool) (l : list A) :
  existsb p l = false -> find p l = None.
Proof.
  intros H. destruct (find p l) as [x|] eqn:E; [|reflexivity].
  assert (existsb p l = true) by (apply find_existsb; eauto). congruence.
Qed.

(** The session list is append-only: no call removes or rewrites an entry. *)
Lemma sessions_append_only (c : call) (s : state) :
  exists ext, sessions (final (invoke c s)) = sessions s ++ ext.
Proof.
  destruct c; cbn;
    try (exists []; open_state s; rewrite app_nil_r; reflexivity).
  - unfold uploadFile, bind, set_with. destruct (get_name file);
      exists []; open_state s; rewrite app_nil_r; reflexivity.
  - eexists. open_state s. reflexivity.
  - unfold loadSession, bind, get. cbn.
    destruct (find _ _); exists []; open_state s; rewrite app_nil_r; reflexivity.
Qed.

Lemma run_keeps_first_match (cs : list call) (s : state) (key : value) (x : Session) :
  find (has_fileId key) (sessions s) = Some x ->
  find (has_fileId key) (sessions (run cs s)) = Some x.
Proof.
  revert s. induction cs as [|c cs IH]; intros s H; [exact H|].
  rewrite run_cons. apply IH.
  destruct (sessions_append_only c s) as [ext ->].
  now apply find_app_hit.
Qed.

Lemma loadSession_hit (s : state) (key : value) (x : Session) :
  find (has_fileId key) (sessions s) = Some x ->
  loadSession key s =
    let s' := merge s [CurrentFile (data x); CurrentPage (VNum 1)] in
    mkOutcome (Normal VUndefined) s' [s'].
Proof.
  intros H. unfold loadSession, bind, get. cbn. rewrite H. reflexivity.
Qed.

Lemma loadSession_miss (s : state) (key : value) :
  find (has_fileId key) (sessions s) = None ->
  loadSession key s = mkOutcome (Normal VUndefined) s [].
Proof.
  intros H. unfold loadSession, bind, get. cbn. rewrite H. reflexivity.
Qed.

Lemma addSession_sessions (s : state) (key d : value) :
  sessions (final (addSession key d s)) = sessions s ++ [mkSession key d].
Proof. open_state s. reflexivity. Qed.

(** ** Session lookup *)

(** C1, as stated, fails: after [addSession("f1", doc1)] and
    [addSession("f1", doc2)] on the initial store, [loadSession("f1")] makes
    [doc1], the first session appended, the current file and not [doc2]. *)
Lemma loadSession_last_write_refuted :
  let s := run [AddSession (VStr "f1") (doc 1); AddSession (VStr "f1") (doc 2)] initial in
  let o := loadSession (VStr "f1") s in
  map data (sessions s) = [doc 1; doc 2] /\
  currentFile (final o) = doc 1 /\
  currentFile (final o) <> doc 2.
Proof. cbn. repeat split. discriminate. Qed.

(** C1 (amended): [find] returns the first element that matches, so lookup
    resolves to the session appended earliest.  Starting from a store with no
    session for [key], any sequence of calls containing [addSession(key, d1)]
    and later [addSession(key, d2)] leaves a store in which [loadSession(key)]
    returns normally, sets [currentFile] to [d1] and [currentPage] to 1.
    ([key] is any value equal to itself under [===], that is, not [NaN].) *)
Theorem loadSession_first_write_wins
    (s : state) (key d1 d2 : value) (mid post : list call) :
  strict_eq key key = true ->
  existsb (has_fileId key) (sessions s) = false ->
  let s' := run (AddSession key d1 :: mid ++ AddSession key d2 :: post) s in
  let o := loadSession key s' in
  result o = Normal VUndefined /\
  currentFile (final o) = d1 /\
  currentPage (final o) = VNum 1.
Proof.
  intros Hrefl Hnone s' o.
  assert (Hfirst : find (has_fileId key) (sessions s') = Some (mkSession key d1)).
  { subst s'. rewrite run_cons. apply run_keeps_first_match.
    change (invoke (AddSession key d1) s) with (addSession key d1 s).
    rewrite addSession_sessions, find_app_miss by now apply find_none_existsb.
    cbn. unfold has_fileId. cbn. now rewrite Hrefl. }
  subst o. rewrite (loadSession_hit _ _ _ Hfirst).
  destruct s'; repeat split.
Qed.

(** [NaN === NaN] is false: a session filed under [NaN] is never found. *)
Example loadSession_NaN_never_hits :
  let s := final (addSession VNaN (doc 1) initial) in
  loadSession VNaN (final (setCurrentFile (doc 2) s))
    = mkOutcome (Normal VUndefined) (final (setCurrentFile (doc 2) s)) [].
Proof. reflexivity. Qed.

Lemma loadSession_first_write_wins_witness :
  strict_eq (VStr "f1") (VStr "f1") = true /\
  existsb (has_fileId (VStr "f1")) (sessions initial) = false /\
  let s' := run (AddSession (VStr "f1") (doc 1)
                   :: [SetCurrentPage (VNum 5)]
                   ++ AddSession (VStr "f1") (doc 2) :: [SetCurrentPage (VNum 7)])
                initial in
  let o := loadSession (VStr "f1") s' in
  result o = Normal VUndefined /\
  currentFile (final o) = doc 1 /\
  currentPage (final o) = VNum 1.
Proof.
  split; [reflexivity | split; [reflexivity |]].
  apply (loadSession_first_write_wins initial (VStr "f1") (doc 1) (doc 2)
           [SetCurrentPage (VNum 5)] [SetCurrentPage (VNum 7)]); reflexivity.
Defined.

(** ** The page invariant *)

Lemma invoke_page (c : call) (s : state) :
  page_arg_ok c = true ->
  page_ge_1 (currentPage s) = true ->
  page_ge_1 (currentPage (final (invoke c s))) = true.
Proof.
  intros Harg Hs. destruct c; cbn in Harg |- *;
    try (open_state s; first [exact Hs | exact Harg | reflexivity]).
  - unfold uploadFile, bind, set_with.
    destruct (get_name file); open_state s; exact Hs.
  - unfold loadSession, bind, get. cbn.
    destruct (find _ _); open_state s; [reflexivity | exact Hs].
Qed.

(** C2, as stated, fails: [setCurrentPage(0)] on the initial store is a run of
    store operations and leaves [currentPage] at 0. *)
Lemma currentPage_invariant_refuted :
  let s := run [SetCurrentPage (VNum 0)] initial in
  currentPage s = VNum 0 /\ page_ge_1 (currentPage s) = false.
Proof. split; reflexivity. Qed.

(** C2 (amended): [setCurrentPage] stores its argument as it comes, so after
    it [currentPage] is that argument and is at least 1 exactly when the
    argument is; every other operation keeps [currentPage] ([loadSession] on a
    miss and all the calls that do not switch the document) or sets it to 1
    ([addSession], [setCurrentFile], [loadSession] on a hit).  Hence
    [currentPage] is at least 1 in every state reached from the initial one
    by calls whose [setCurrentPage] arguments are all numbers at least 1. *)
Theorem currentPage_ge_1_guarded :
  (forall cs : list call,
     forallb page_arg_ok cs = true ->
     page_ge_1 (currentPage (run cs initial)) = true) /\
  (forall (s : state) (page : value),
     currentPage (final (setCurrentPage page s)) = page /\
     page_ge_1 (currentPage (final (setCurrentPage page s))) = page_ge_1 page) /\
  (forall (c : call) (s : state),
     currentPage (final (invoke c s)) =
       match c with
       | SetCurrentPage page => page
       | AddSession _ _ | SetCurrentFile _ => VNum 1
       | LoadSession key =>
           if existsb (has_fileId key) (sessions s) then VNum 1 else currentPage s
       | _ => currentPage s
       end).
Proof.
  split; [|split].
  - intros cs. generalize initial (eq_refl : page_ge_1 (currentPage initial) = true).
    induction cs as [|c cs IH]; intros s Hs Hcs; [exact Hs|].
    cbn in Hcs. apply andb_prop in Hcs as [Hc Hcs].
    rewrite run_cons. apply IH; [now apply invoke_page | exact Hcs].
  - intros s page. open_state s. split; reflexivity.
  - intros c s.
    destruct c as [tab|status|file e|k d|key|d| |page|node|url title page| ];
      try (cbn; open_state s; reflexivity).
    + cbn. unfold uploadFile, bind, set_with.
      destruct (get_name file); open_state s; reflexivity.
    + change (invoke (LoadSession key) s) with (loadSession key s).
      destruct (existsb (has_fileId key) (sessions s)) eqn:E.
      * apply find_existsb in E as [x E].
        rewrite (loadSession_hit _ _ _ E). open_state s. reflexivity.
      * now rewrite (loadSession_miss _ _ (find_none_existsb _ _ E)).
Qed.

Lemma currentPage_ge_1_guarded_witness :
  let cs := [UploadFile (pdf "report.pdf") (mkEnv "0.4fzyo82mvyr" "2025-11-29T10:15:30.000Z");
             AddSession (VStr "4fzyo82") (doc 1);
             SetCurrentPage (VNum 5);
             UploadFile VNull (mkEnv "0.i" "2025-11-29T10:16:00.000Z");
             LoadSession (VStr "4fzyo82");
             SetCurrentPage (VNum 2)] in
  forallb page_arg_ok cs = true /\
  page_ge_1 (currentPage (run cs initial)) = true.
Proof.
  split; [reflexivity |].
  apply (proj1 currentPage_ge_1_guarded); reflexivity.
Defined.

(** ** [addSession] *)

(** C3, as stated, fails: [addSession("", doc1)] on the initial store returns
    normally but appends a session and makes [doc1] the current file. *)
Lemma addSession_empty_id_refuted :
  let o := addSession (VStr "") (doc 1) initial in
  result o = Normal VUndefined /\
  sessions (final o) = [mkSession (VStr "") (doc 1)] /\
  currentFile (final o) = doc 1 /\
  final o <> initial.
Proof. cbn. repeat split. discriminate. Qed.

(** C3 (amended): [addSession] does not look at [fileId].  With an empty
    [fileId] (as with any other) it raises no error, appends
    [{fileId, data}] to [sessions], sets [currentFile] to [data] and
    [currentPage] to 1, leaves every other field as it was, and so does
    change the store. *)
Theorem addSession_ignores_fileId (s : state) (key d : value) :
  let o := addSession key d s in
  result o = Normal VUndefined /\
  sessions (final o) = sessions s ++ [mkSession key d] /\
  currentFile (final o) = d /\
  currentPage (final o) = VNum 1 /\
  (activeTab (final o), isLoading (final o), files (final o),
   sidebarOpen (final o), selectedNodeId (final o),
   pdfViewerOpen (final o), pdfViewerUrl (final o),
   pdfViewerTitle (final o), pdfViewerPage (final o))
    = (activeTab s, isLoading s, files s, sidebarOpen s, selectedNodeId s,
       pdfViewerOpen s, pdfViewerUrl s, pdfViewerTitle s, pdfViewerPage s) /\
  final o <> s.
Proof.
  cbn. repeat split; try (open_state s; reflexivity).
  intros H. apply (f_equal (fun st => length (sessions st))) in H.
  open_state s. rewrite length_app in H. cbn in H. lia.
Qed.

(** C9: [addSession] leaves [activeTab] and [selectedNodeId] as they were, and
    with them every field other than [sessions], [currentFile] and
    [currentPage]. *)
Theorem addSession_frame (s : state) (key d : value) :
  let s' := final (addSession key d s) in
  activeTab s' = activeTab s /\
  selectedNodeId s' = selectedNodeId s /\
  outside_document s' = outside_document s.
Proof. open_state s. repeat split. Qed.

(** ** Switching the document *)

(** C4: [addSession], [setCurrentFile] and [loadSession] on a hit each return
    normally having published exactly one new state, in which [currentFile] is
    the new document and [currentPage] is 1, whatever the page was before. *)
Theorem document_switch_resets_page (s : state) :
  (forall key d : value,
     let o := addSession key d s in
     result o = Normal VUndefined /\ notified o = [final o] /\
     currentFile (final o) = d /\ currentPage (final o) = VNum 1) /\
  (forall d : value,
     let o := setCurrentFile d s in
     result o = Normal VUndefined /\ notified o = [final o] /\
     currentFile (final o) = d /\ currentPage (final o) = VNum 1) /\
  (forall key : value,
     existsb (has_fileId key) (sessions s) = true ->
     let o := loadSession key s in
     exists session,
       find (has_fileId key) (sessions s) = Some session /\
       result o = Normal VUndefined /\ notified o = [final o] /\
       currentFile (final o) = data session /\ currentPage (final o) = VNum 1).
Proof.
  split; [|split].
  - intros key d. open_state s. repeat split.
  - intros d. open_state s. repeat split.
  - intros key Hhit. apply find_existsb in Hhit as [session Hfind].
    exists session. rewrite (loadSession_hit _ _ _ Hfind).
    open_state s. repeat split. exact Hfind.
Qed.

Lemma document_switch_resets_page_witness :
  let s := run [AddSession (VStr "4fzyo82") (doc 1); SetCurrentPage (VNum 5)] initial in
  let o := loadSession (VStr "4fzyo82") s in
  existsb (has_fileId (VStr "4fzyo82")) (sessions s) = true /\
  currentPage s = VNum 5 /\
  exists session,
    find (has_fileId (VStr "4fzyo82")) (sessions s) = Some session /\
    result o = Normal VUndefined /\ notified o = [final o] /\
    currentFile (final o) = data session /\ currentPage (final o) = VNum 1.
Proof.
  intros s o. split; [reflexivity | split; [reflexivity |]].
  apply (proj2 (proj2 (document_switch_resets_page s)) (VStr "4fzyo82")).
  reflexivity.
Defined.

(** C5: when no session of the store has a [fileId] that [===] the one asked
    for, [loadSession] returns normally, publishes nothing and leaves the
    whole store as it was. *)
Theorem loadSession_miss_is_noop (s : state) (key : value) :
  existsb (has_fileId key) (sessions s) = false ->
  loadSession key s = mkOutcome (Normal VUndefined) s [].
Proof.
  intros Hmiss. apply loadSession_miss. now apply find_none_existsb.
Qed.

Lemma loadSession_miss_is_noop_witness :
  let s := run [AddSession (VStr "4fzyo82") (doc 1); SetCurrentPage (VNum 5)] initial in
  existsb (has_fileId (VStr "zzzzzzz")) (sessions s) = false /\
  loadSession (VStr "zzzzzzz") s = mkOutcome (Normal VUndefined) s [].
Proof.
  intros s. split; [reflexivity |].
  apply (loadSession_miss_is_noop s (VStr "zzzzzzz")). reflexivity.
Defined.

(** ** The PDF overlay *)

(** C6: from every state [closePDFViewer] returns normally with the overlay
    slice equal to [{open: false, url: null, title: null, page: 1}], and a
    second call leaves the state it finds unchanged. *)
Theorem closePDFViewer_resets_overlay (s : state) :
  let o := closePDFViewer s in
  result o = Normal VUndefined /\
  overlay (final o) = (VBool false, VNull, VNull, VNum 1) /\
  final (closePDFViewer (final o)) = final o.
Proof. open_state s. repeat split. Qed.

(** C7: [openPDFViewer(url, title)] with the page left out opens the overlay
    on [url] and [title] at page 1 from every state; so from any state
    [openPDFViewer('a.pdf', 'Doc', 3)], [closePDFViewer()],
    [openPDFViewer('b.pdf', 'Doc2')] ends with [pdfViewerPage] 1. *)
Theorem openPDFViewer_default_page (s : state) (url title : value) :
  overlay (final (openPDFViewer url title VUndefined s))
    = (VBool true, url, title, VNum 1) /\
  pdfViewerPage
    (run [OpenPDFViewer (VStr "a.pdf") (VStr "Doc") (VNum 3);
          ClosePDFViewer;
          OpenPDFViewer (VStr "b.pdf") (VStr "Doc2") VUndefined] s)
    = VNum 1.
Proof. open_state s. split; reflexivity. Qed.

(** ** File identifiers *)

Lemma results_ids (cs : list call) (s : state) :
  issued_ids cs s = collect draw_slice cs.
Proof.
  unfold issued_ids. revert s.
  induction cs as [|c cs IH]; intros s; [reflexivity|].
  cbn [results collect]. rewrite IH.
  destruct c; try reflexivity.
  cbn. unfold uploadFile, bind, set_with.
  destruct (get_name file); reflexivity.
Qed.

(** C8, as stated, fails: two [uploadFile] calls that meet the same random
    draw return the same identifier. *)
Lemma uploadFile_ids_collide :
  let cs := [UploadFile (pdf "a.pdf") (mkEnv "0.4fzyo82mvyr" "2025-11-29T10:15:30.000Z");
             UploadFile (pdf "b.pdf") (mkEnv "0.4fzyo82mvyr" "2025-11-29T10:15:31.000Z")] in
  issued_ids cs initial = [VStr "4fzyo82"; VStr "4fzyo82"] /\
  map id (files (run cs initial)) = [VStr "4fzyo82"; VStr "4fzyo82"] /\
  ~ NoDup (issued_ids cs initial).
Proof.
  cbn. repeat split. intros H. inversion H as [|x l Hin _]. apply Hin. now left.
Qed.

(** C8 (amended): the identifier an [uploadFile] call returns is the slice
    [substring(2, 9)] of the base-36 rendering of its own random draw and
    depends on nothing else: neither on the store nor on the identifiers
    issued before.  The identifiers returned along a run are therefore
    pairwise distinct exactly when those slices of the draws are. *)
Theorem uploadFile_ids_follow_draws (cs : list call) (s : state) :
  issued_ids cs s = collect draw_slice cs /\
  (NoDup (issued_ids cs s) <-> NoDup (collect draw_slice cs)).
Proof.
  rewrite results_ids. split; [reflexivity | tauto].
Qed.

(** ** More about the store: uploads *)

Ltac open_upload file :=
  unfold uploadFile, bind, set_with; destruct file; cbn in *; try discriminate.

(** X1: [uploadFile] on a file that is neither [undefined] nor [null] returns
    the new identifier, publishes one state, puts exactly one record (that
    identifier, the file's name, the date) in front of [files] and changes no
    other field: no document becomes current. *)
Theorem uploadFile_prepends_record (s : state) (file : value) (e : env) :
  nullish file = false ->
  exists r : FileRecord,
    uploaded_record (UploadFile file e) = Some r /\
    let o := uploadFile file e s in
    result o = Normal (id r) /\
    notified o = [final o] /\
    files (final o) = r :: files s /\
    outside_files (final o) = outside_files s.
Proof.
  intros Hfile. open_upload file; eexists; (split; [reflexivity|]);
    open_state s; repeat split.
Qed.

Lemma uploadFile_prepends_record_witness :
  nullish (pdf "report.pdf") = false /\
  exists r : FileRecord,
    uploaded_record
      (UploadFile (pdf "report.pdf") (mkEnv "0.4fzyo82mvyr" "2025-11-29T10:15:30.000Z"))
      = Some r /\
    let o := uploadFile (pdf "report.pdf")
               (mkEnv "0.4fzyo82mvyr" "2025-11-29T10:15:30.000Z") initial in
    result o = Normal (id r) /\
    notified o = [final o] /\
    files (final o) = r :: files initial /\
    outside_files (final o) = outside_files initial.
Proof.
  split; [reflexivity |].
  apply (uploadFile_prepends_record initial (pdf "report.pdf")). reflexivity.
Defined.

(** X2: a store call throws exactly when it is [uploadFile] on [undefined] or
    [null]; it then throws a [TypeError], leaves the store as it was and
    publishes nothing.  Every other call returns. *)
Theorem store_throws_only_on_nullish_upload (c : call) (s : state) :
  ((exists x, result (invoke c s) = Abrupt x) <-> reads_nullish c = true) /\
  (reads_nullish c = true -> invoke c s = mkOutcome (Abrupt TypeError) s []).
Proof.
  destruct c; cbn;
    try (split; [split; [intros [x H]; discriminate | discriminate] | discriminate]).
  - unfold uploadFile, bind, set_with.
    destruct file; cbn;
      try (split; [split; [intros [x H]; discriminate | discriminate] | discriminate]);
      (split; [split; eauto | reflexivity]).
  - unfold loadSession, bind, get. cbn. destruct (find _ _); cbn;
      (split; [split; [intros [x H]; discriminate | discriminate] | discriminate]).
Qed.

Lemma store_throws_only_on_nullish_upload_witness :
  reads_nullish (UploadFile VNull (mkEnv "0.i" "2025-11-29T10:15:30.000Z")) = true /\
  invoke (UploadFile VNull (mkEnv "0.i" "2025-11-29T10:15:30.000Z")) initial
    = mkOutcome (Abrupt TypeError) initial [].
Proof.
  split; [reflexivity |].
  apply (proj2 (store_throws_only_on_nullish_upload
                  (UploadFile VNull (mkEnv "0.i" "2025-11-29T10:15:30.000Z")) initial)).
  reflexivity.
Defined.

Lemma invoke_files (c : call) (s : state) :
  files (final (invoke c s)) =
    match uploaded_record c with
    | Some r => r :: files s
    | None => files s
    end.
Proof.
  destruct c; cbn; try (open_state s; reflexivity).
  - unfold uploadFile, bind, set_with. destruct (get_name file); open_state s; reflexivity.
  - unfold loadSession, bind, get. cbn. destruct (find _ _); open_state s; reflexivity.
Qed.

Lemma collect_map {A B C} (f : A -> option B) (g : B -> C) (l : list A) :
  map g (collect f l) = collect (fun a => option_map g (f a)) l.
Proof.
  induction l as [|a l IH]; [reflexivity|]. cbn.
  destruct (f a); cbn; now rewrite IH.
Qed.

Lemma collect_ext {A B} (f g : A -> option B) (l : list A) :
  (forall a, f a = g a) -> collect f l = collect g l.
Proof.
  intros H. induction l as [|a l IH]; [reflexivity|]. cbn. now rewrite H, IH.
Qed.

(** X3: [files] is a log of the uploads, newest first: after any run it is the
    records of the [uploadFile] calls that returned, in reverse order of
    call, in front of what was there; its identifiers are the returned ones. *)
Theorem files_log_uploads (cs : list call) (s : state) :
  files (run cs s) = rev (collect uploaded_record cs) ++ files s /\
  map id (files (run cs s)) = rev (issued_ids cs s) ++ map id (files s).
Proof.
  assert (H : files (run cs s) = rev (collect uploaded_record cs) ++ files s).
  { revert s. induction cs as [|c cs IH]; intros s; [reflexivity|].
    rewrite run_cons, IH, invoke_files. cbn [collect].
    destruct (uploaded_record c); [|reflexivity].
    cbn [rev]. now rewrite <- app_assoc. }
  split; [exact H|].
  rewrite H, map_app, map_rev, collect_map, results_ids. do 2 f_equal.
  apply collect_ext. intros [ | | file e | | | | | | | | ]; try reflexivity.
  cbn. destruct (get_name file); reflexivity.
Qed.

Lemma substring_length_le (n m : nat) (s : string) :
  (String.length (substring n m s) <= m)%nat.
Proof.
  revert n m. induction s as [|a s IH]; intros [|n] [|m]; cbn; try lia.
  - specialize (IH 0%nat m). lia.
  - apply (IH n 0%nat).
  - apply (IH n (S m)).
Qed.

(** X4: every identifier [uploadFile] returns along a run is a string of at
    most seven characters. *)
Theorem issued_ids_at_most_seven (cs : list call) (s : state) :
  Forall (fun v => exists i, v = VStr i /\ (String.length i <= 7)%nat)
         (issued_ids cs s).
Proof.
  rewrite results_ids. induction cs as [|c cs IH]; [constructor|].
  cbn [collect]. destruct c; cbn; try exact IH.
  destruct (get_name file); [|exact IH].
  constructor; [|exact IH]. eexists. split; [reflexivity|].
  apply substring_length_le.
Qed.

Lemma occurs_app (c : ascii) (a b : string) :
  occurs c (a ++ b)%string = occurs c a || occurs c b.
Proof.
  induction a as [|x a IH]; cbn; [reflexivity|].
  now rewrite IH, orb_assoc.
Qed.

(** X5: the date kept with an upload is the time stamp cut before its first
    [T]: it never contains a [T]; a stamp without [T] is kept whole; and from
    a stamp [d ++ "T" ++ rest] where [d] has no [T], exactly [d] is kept. *)
Theorem split_head_before_first (c : ascii) (s : string) :
  occurs c (split_head c s) = false /\
  (occurs c s = false -> split_head c s = s) /\
  (forall d rest, s = (d ++ String c rest)%string -> occurs c d = false ->
                  split_head c s = d).
Proof.
  split; [|split].
  - induction s as [|a s IH]; cbn; [reflexivity|].
    destruct (Ascii.eqb a c) eqn:E; cbn; [reflexivity|]. now rewrite E.
  - induction s as [|a s IH]; cbn; [reflexivity|].
    destruct (Ascii.eqb a c); cbn; [discriminate|]. intros H. now rewrite IH.
  - intros d rest ->. induction d as [|a d IH]; cbn.
    + now rewrite Ascii.eqb_refl.
    + destruct (Ascii.eqb a c); cbn; [discriminate|]. intros H. now rewrite IH.
Qed.

Lemma split_head_before_first_witness :
  occurs "T"%char "2025-11-29" = false /\
  split_head "T"%char "2025-11-29T10:15:30.000Z" = "2025-11-29".
Proof.
  split; [reflexivity |].
  apply (proj2 (proj2 (split_head_before_first "T"%char "2025-11-29T10:15:30.000Z"))
           "2025-11-29" "10:15:30.000Z"); reflexivity.
Defined.

(** ** More about the store: sessions and the current file *)

Lemma invoke_sessions (c : call) (s : state) :
  sessions (final (invoke c s)) =
    match added_session c with
    | Some x => sessions s ++ [x]
    | None => sessions s
    end.
Proof.
  destruct c; cbn; try (open_state s; reflexivity).
  - unfold uploadFile, bind, set_with. destruct (get_name file); open_state s; reflexivity.
  - unfold loadSession, bind, get. cbn. destruct (find _ _); open_state s; reflexivity.
Qed.

(** X6: [sessions] is an append-only log: after any run it is what was there,
    untouched, followed by one entry per [addSession] call, in call order. *)
Theorem sessions_log_additions (cs : list call) (s : state) :
  sessions (run cs s) = sessions s ++ collect added_session cs.
Proof.
  revert s. induction cs as [|c cs IH]; intros s; cbn [collect].
  - now rewrite app_nil_r.
  - rewrite run_cons, IH, invoke_sessions.
    destruct (added_session c); [|reflexivity]. now rewrite <- app_assoc.
Qed.

(** X7: every call is one step for the subscribers: it publishes either
    nothing, and then the store is as before, or exactly one state, the one
    it ends in. *)
Theorem invoke_publishes_at_most_once (c : call) (s : state) :
  let o := invoke c s in
  (notified o = [] /\ final o = s) \/ notified o = [final o].
Proof.
  destruct c; cbn; try (right; reflexivity).
  - unfold uploadFile, bind, set_with. destruct (get_name file); cbn; auto.
  - unfold loadSession, bind, get. cbn. destruct (find _ _); cbn; auto.
Qed.

Lemma invoke_currentFile (c : call) (s : state) :
  is_switch c = false -> currentFile (final (invoke c s)) = currentFile s.
Proof.
  destruct c; cbn; try discriminate; intros _; try (open_state s; reflexivity).
  unfold uploadFile, bind, set_with. destruct (get_name file); open_state s; reflexivity.
Qed.

(** X8: only [addSession], [loadSession] and [setCurrentFile] change the
    current file: a run without them (uploads included) ends with the
    [currentFile] it started with. *)
Theorem currentFile_kept_without_switch (cs : list call) (s : state) :
  existsb is_switch cs = false ->
  currentFile (run cs s) = currentFile s.
Proof.
  revert s. induction cs as [|c cs IH]; intros s H; [reflexivity|].
  cbn in H. apply orb_false_elim in H as [Hc Hcs].
  rewrite run_cons, IH by exact Hcs. now apply invoke_currentFile.
Qed.

Lemma currentFile_kept_without_switch_witness :
  let cs := [UploadFile (pdf "report.pdf") (mkEnv "0.4fzyo82mvyr" "2025-11-29T10:15:30.000Z");
             SetCurrentPage (VNum 3);
             SetLoading (VBool true);
             OpenPDFViewer (VStr "a.pdf") (VStr "Doc") VUndefined] in
  existsb is_switch cs = false /\
  currentFile (run cs initial) = currentFile initial.
Proof.
  split; [reflexivity |].
  apply (currentFile_kept_without_switch _ initial). reflexivity.
Defined.

Lemma invoke_null_or_cached (c : call) (s : state) :
  is_setCurrentFile c = false ->
  null_or_cached s -> null_or_cached (final (invoke c s)).
Proof.
  unfold null_or_cached. intros Hc Hs.
  destruct c; try discriminate;
    try (cbn; open_state s; exact Hs).
  - rewrite invoke_currentFile, invoke_sessions by reflexivity. exact Hs.
  - right. open_state s. rewrite map_app. apply in_or_app. right. now left.
  - cbn. unfold loadSession, bind, get. cbn.
    destruct (find _ _) as [x|] eqn:E; [|exact Hs].
    right. apply find_some in E as [Hin _].
    open_state s. now apply in_map.
Qed.

(** X9: as long as [setCurrentFile] is not used, the current file is always
    [null] (the initial value) or the data of a session stored in [sessions]:
    what is on screen can be loaded again. *)
Theorem currentFile_null_or_cached (cs : list call) :
  existsb is_setCurrentFile cs = false ->
  let s := run cs initial in
  currentFile s = VNull \/ In (currentFile s) (map data (sessions s)).
Proof.
  intros H. cbn zeta. change (null_or_cached (run cs initial)).
  assert (H0 : null_or_cached initial) by (left; reflexivity).
  revert H H0. generalize initial.
  induction cs as [|c cs IH]; intros s H Hs; [exact Hs|].
  cbn in H. apply orb_false_elim in H as [Hc Hcs].
  rewrite run_cons. apply IH; [exact Hcs | now apply invoke_null_or_cached].
Qed.

Lemma currentFile_null_or_cached_witness :
  let cs := [AddSession (VStr "4fzyo82") (doc 1);
             AddSession (VStr "9k2l1aa") (doc 2);
             SetCurrentPage (VNum 4);
             LoadSession (VStr "4fzyo82")] in
  existsb is_setCurrentFile cs = false /\
  let s := run cs initial in
  currentFile s = VNull \/ In (currentFile s) (map data (sessions s)).
Proof.
  split; [reflexivity |].
  apply (currentFile_null_or_cached
           [AddSession (VStr "4fzyo82") (doc 1);
            AddSession (VStr "9k2l1aa") (doc 2);
            SetCurrentPage (VNum 4);
            LoadSession (VStr "4fzyo82")]).
  reflexivity.
Defined.

Lemma find_split {A} (p : A -> bool) (l : list A) (x : A) :
  find p l = Some x ->
  exists pre post, l = pre ++ x :: post /\ existsb p pre = false /\ p x = true.
Proof.
  induction l as [|a l IH]; cbn; [discriminate|].
  destruct (p a) eqn:E.
  - intros [= ->]. exists [], l. auto.
  - intros H. destruct (IH H) as (pre & post & -> & Hpre & Hx).
    exists (a :: pre), post. cbn. rewrite E. auto.
Qed.

(** X10: on a hit [loadSession] takes the first session, in append order,
    whose [fileId] is [===] the one asked for: no session before it matches,
    whatever comes after it. *)
Theorem loadSession_takes_first_match (s : state) (key : value) :
  existsb (has_fileId key) (sessions s) = true ->
  exists pre x post,
    sessions s = pre ++ x :: post /\
    existsb (has_fileId key) pre = false /\
    strict_eq (fileId x) key = true /\
    currentFile (final (loadSession key s)) = data x.
Proof.
  intros Hhit. apply find_existsb in Hhit as [x Hfind].
  destruct (find_split _ _ _ Hfind) as (pre & post & Hl & Hpre & Hx).
  exists pre, x, post. rewrite (loadSession_hit _ _ _ Hfind).
  repeat split; try assumption. open_state s. reflexivity.
Qed.

Lemma loadSession_takes_first_match_witness :
  let s := run [AddSession (VStr "a") (doc 1); AddSession (VStr "b") (doc 2);
                AddSession (VStr "b") (doc 3)] initial in
  existsb (has_fileId (VStr "b")) (sessions s) = true /\
  exists pre x post,
    sessions s = pre ++ x :: post /\
    existsb (has_fileId (VStr "b")) pre = false /\
    strict_eq (fileId x) (VStr "b") = true /\
    currentFile (final (loadSession (VStr "b") s)) = data x.
Proof.
  intros s. split; [reflexivity |].
  apply (loadSession_takes_first_match s (VStr "b")). reflexivity.
Defined.

(** X11: [loadSession] is idempotent on the store: calling it again with the
    same [fileId] ends in the same state as calling it once. *)
Theorem loadSession_idempotent (s : state) (key : value) :
  final (loadSession key (final (loadSession key s))) = final (loadSession key s).
Proof.
  destruct (find (has_fileId key) (sessions s)) as [x|] eqn:E.
  - rewrite (loadSession_hit _ _ _ E).
    assert (E' : find (has_fileId key)
                   (sessions (merge s [CurrentFile (data x); CurrentPage (VNum 1)]))
                 = Some x) by (open_state s; exact E).
    cbn zeta. cbn [final]. rewrite (loadSession_hit _ _ _ E').
    open_state s. reflexivity.
  - rewrite (loadSession_miss _ _ E). cbn [final].
    now rewrite (loadSession_miss _ _ E).
Qed.

(** X12: [loadSession] and [setCurrentFile] write [currentFile] and
    [currentPage] only: the session list, the selected node, the tab and all
    the rest stay, so a node selected in the previous document is still
    selected in the new one. *)
Theorem switch_keeps_selection (s : state) (key d : value) :
  (let s' := final (loadSession key s) in
   sessions s' = sessions s /\ outside_document s' = outside_document s) /\
  (let s' := final (setCurrentFile d s) in
   sessions s' = sessions s /\ outside_document s' = outside_document s).
Proof.
  split.
  - unfold loadSession, bind, get. cbn.
    destruct (find _ _); open_state s; split; reflexivity.
  - open_state s. split; reflexivity.
Qed.

(** ** More about the store: the sidebar *)

Lemma invoke_sidebar (c : call) (s : state) (b : bool) :
  sidebarOpen s = VBool b ->
  sidebarOpen (final (invoke c s)) = VBool (if is_toggle c then negb b else b).
Proof.
  intros H. destruct c; cbn; try (open_state s; exact H).
  - unfold uploadFile, bind, set_with. destruct (get_name file); open_state s; exact H.
  - unfold loadSession, bind, get. cbn. destruct (find _ _); open_state s; exact H.
  - open_state s. now rewrite H.
Qed.

Lemma run_sidebar (cs : list call) (s : state) (b : bool) :
  sidebarOpen s = VBool b ->
  sidebarOpen (run cs s) = VBool (xorb b (Nat.odd (length (filter is_toggle cs)))).
Proof.
  revert s b. induction cs as [|c cs IH]; intros s b H.
  - cbn. now rewrite xorb_false_r.
  - rewrite run_cons, (IH _ _ (invoke_sidebar c s b H)). cbn [filter].
    destruct (is_toggle c); [|reflexivity].
    cbn [length]. rewrite Nat.odd_succ, <- Nat.negb_odd.
    now destruct b, (Nat.odd _).
Qed.

(** X13: from the initial store [sidebarOpen] is always a boolean, [true]
    exactly after an even number of [toggleSidebar] calls, whatever else was
    called; and two [toggleSidebar] calls in a row give back the very state
    they started from. *)
Theorem sidebar_follows_toggle_parity (cs : list call) :
  let s := run cs initial in
  sidebarOpen s = VBool (Nat.even (length (filter is_toggle cs))) /\
  final (toggleSidebar (final (toggleSidebar s))) = s.
Proof.
  cbn zeta.
  assert (H : sidebarOpen (run cs initial)
              = VBool (Nat.even (length (filter is_toggle cs)))).
  { rewrite (run_sidebar cs initial true eq_refl), <- Nat.negb_odd.
    now destruct (Nat.odd _). }
  split; [exact H|].
  destruct (run cs initial); cbn in *. rewrite H. cbn.
  now rewrite negb_involutive.
Qed.

(** ** More about the store: the overlay *)

Lemma invoke_overlay_other (c : call) (s : state) :
  is_overlay_call c = false -> overlay (final (invoke c s)) = overlay s.
Proof.
  destruct c; cbn; try discriminate; intros _; try (open_state s; reflexivity).
  - unfold uploadFile, bind, set_with. destruct (get_name file); open_state s; reflexivity.
  - unfold loadSession, bind, get. cbn. destruct (find _ _); open_state s; reflexivity.
Qed.

Lemma invoke_overlay_call (c : call) (s1 s2 : state) :
  is_overlay_call c = true ->
  overlay (final (invoke c s1)) = overlay (final (invoke c s2)).
Proof.
  destruct c; try discriminate; intros _; destruct s1, s2; reflexivity.
Qed.

Lemma invoke_outside_overlay_call (c : call) (s : state) :
  is_overlay_call c = true ->
  outside_overlay (final (invoke c s)) = outside_overlay s.
Proof.
  destruct c; try discriminate; intros _; destruct s; reflexivity.
Qed.

Lemma invoke_outside_overlay_cong (c : call) (s1 s2 : state) :
  outside_overlay s1 = outside_overlay s2 ->
  outside_overlay (final (invoke c s1)) = outside_overlay (final (invoke c s2)).
Proof.
  destruct s1, s2. unfold outside_overlay. cbn. intros [= -> -> -> -> -> -> -> ->].
  destruct c; cbn; try reflexivity.
  - unfold uploadFile, bind, set_with. destruct (get_name file); reflexivity.
  - unfold loadSession, bind, get. cbn. destruct (find _ _); reflexivity.
Qed.

(** X14: the overlay and the rest of the store are two machines side by side.
    After any run the overlay is what the [openPDFViewer] and
    [closePDFViewer] calls of the run alone would have left, and every other
    field is what the remaining calls alone would have left. *)
Theorem overlay_runs_beside_document (cs : list call) (s : state) :
  overlay (run cs s) = overlay (run (filter is_overlay_call cs) s) /\
  outside_overlay (run cs s)
    = outside_overlay (run (filter (fun c => negb (is_overlay_call c)) cs) s).
Proof.
  split.
  - assert (H : overlay s = overlay s) by reflexivity. revert H.
    generalize s at 1 3. generalize s.
    induction cs as [|c cs IH]; intros s2 s1 H; [exact H|].
    cbn [filter]. destruct (is_overlay_call c) eqn:E.
    + rewrite !run_cons. apply IH. now apply invoke_overlay_call.
    + rewrite run_cons. apply IH. now rewrite invoke_overlay_other.
  - assert (H : outside_overlay s = outside_overlay s) by reflexivity. revert H.
    generalize s at 1 3. generalize s.
    induction cs as [|c cs IH]; intros s2 s1 H; [exact H|].
    cbn [filter]. destruct (is_overlay_call c) eqn:E; cbn [negb].
    + rewrite run_cons. apply IH. now rewrite invoke_outside_overlay_call.
    + rewrite !run_cons. apply IH. now apply invoke_outside_overlay_cong.
Qed.

(** X15: among overlay calls the last one wins: an [openPDFViewer] or
    [closePDFViewer] call made right after another ends in the state it would
    have reached without the first.  So closing after opening is closing, and
    reopening forgets the previous url, title and page. *)
Theorem last_overlay_call_wins (c c' : call) (s : state) :
  is_overlay_call c = true ->
  is_overlay_call c' = true ->
  final (invoke c' (final (invoke c s))) = final (invoke c' s).
Proof.
  destruct c; try discriminate; destruct c'; try discriminate; intros _ _;
    destruct s; reflexivity.
Qed.

Lemma last_overlay_call_wins_witness :
  is_overlay_call (OpenPDFViewer (VStr "a.pdf") (VStr "Doc") (VNum 3)) = true /\
  is_overlay_call ClosePDFViewer = true /\
  final (invoke ClosePDFViewer
           (final (invoke (OpenPDFViewer (VStr "a.pdf") (VStr "Doc") (VNum 3)) initial)))
    = final (invoke ClosePDFViewer initial).
Proof.
  split; [reflexivity | split; [reflexivity |]].
  apply (last_overlay_call_wins (OpenPDFViewer (VStr "a.pdf") (VStr "Doc") (VNum 3))
           ClosePDFViewer initial); reflexivity.
Defined.

Lemma invoke_closed_is_reset (c : call) (s : state) :
  closed_is_reset s -> closed_is_reset (final (invoke c s)).
Proof.
  unfold closed_is_reset. intros Hs. destruct (is_overlay_call c) eqn:E.
  - destruct c; try discriminate; destruct s; cbn; auto.
  - pose proof (invoke_overlay_other c s E) as H. rewrite H.
    unfold overlay in H. injection H as H _ _ _. now rewrite H.
Qed.

(** X16: in every state reached from the initial store the overlay is either
    open ([pdfViewerOpen] is [true]) or fully reset: closed, with no url, no
    title and page 1.  A closed overlay never keeps stale content. *)
Theorem closed_overlay_is_reset (cs : list call) :
  let s := run cs initial in
  pdfViewerOpen s = VBool true \/
  overlay s = (VBool false, VNull, VNull, VNum 1).
Proof.
  cbn zeta. change (closed_is_reset (run cs initial)).
  assert (H0 : closed_is_reset initial) by (right; reflexivity).
  revert H0. generalize initial.
  induction cs as [|c cs IH]; intros s Hs; [exact Hs|].
  rewrite run_cons. apply IH. now apply invoke_closed_is_reset.
Qed.

Lemma invoke_overlay_page (c : call) (s : state) :
  open_page_ok c = true ->
  page_ge_1 (pdfViewerPage s) = true ->
  page_ge_1 (pdfViewerPage (final (invoke c s))) = true.
Proof.
  intros Hc Hs. destruct (is_overlay_call c) eqn:E.
  - destruct c; try discriminate; destruct s; cbn in *; [exact Hc | reflexivity].
  - pose proof (invoke_overlay_other c s E) as H.
    unfold overlay in H. injection H as _ _ _ H. now rewrite H.
Qed.

(** X17: [openPDFViewer] stores the page it is given unchecked: the overlay
    becomes open on the url and title given, at the page given, whatever it
    is ([null] and 0 included), and at 1 only when the page is left out or
    [undefined]; [closePDFViewer] sets the page to 1 and no other call writes
    it.  So [pdfViewerPage] is at least 1 in every state reached from the
    initial store by calls whose [openPDFViewer] page arguments are left out
    or at least 1, and [openPDFViewer] with page 0 breaks this. *)
Theorem overlay_page_ge_1_guarded :
  (forall cs : list call,
     forallb open_page_ok cs = true ->
     page_ge_1 (pdfViewerPage (run cs initial)) = true) /\
  (forall (s : state) (url title page : value),
     page_ge_1 (pdfViewerPage (final (openPDFViewer url title page s)))
       = page_ge_1 (default_param page (VNum 1))) /\
  (forall (s : state) (url title page : value),
     overlay (final (openPDFViewer url title page s))
       = (VBool true, url, title,
          match page with
          | VUndefined => VNum 1
          | _ => page
          end)) /\
  (forall (c : call) (s : state),
     pdfViewerPage (final (invoke c s)) =
       match c with
       | OpenPDFViewer _ _ VUndefined => VNum 1
       | OpenPDFViewer _ _ page => page
       | ClosePDFViewer => VNum 1
       | _ => pdfViewerPage s
       end).
Proof.
  split; [|split; [|split]].
  - intros cs.
    generalize initial (eq_refl : page_ge_1 (pdfViewerPage initial) = true).
    induction cs as [|c cs IH]; intros s Hs Hcs; [exact Hs|].
    cbn in Hcs. apply andb_prop in Hcs as [Hc Hcs].
    rewrite run_cons. apply IH; [now apply invoke_overlay_page | exact Hcs].
  - intros s url title page. destruct s; reflexivity.
  - intros s url title page. destruct s, page; reflexivity.
  - intros c s. destruct (is_overlay_call c) eqn:E.
    + destruct c; try discriminate; [destruct s, page | destruct s]; reflexivity.
    + pose proof (invoke_overlay_other c s E) as H.
      unfold overlay in H. injection H as _ _ _ H. rewrite H.
      destruct c; try discriminate; reflexivity.
Qed.

Lemma overlay_page_ge_1_guarded_witness :
  let cs := [OpenPDFViewer (VStr "a.pdf") (VStr "Doc") (VNum 3);
             AddSession (VStr "4fzyo82") (doc 1);
             ClosePDFViewer;
             OpenPDFViewer (VStr "b.pdf") (VStr "Doc2") VUndefined] in
  forallb open_page_ok cs = true /\
  page_ge_1 (pdfViewerPage (run cs initial)) = true.
Proof.
  split; [reflexivity |].
  apply (proj1 overlay_page_ge_1_guarded); reflexivity.
Defined.

(** ** The toolbar over the store *)

(** X18: until a document is made current the toolbar never shows the bar
    with the export button, and the export handler does nothing: from the
    initial store, after any run without [addSession], [loadSession] and
    [setCurrentFile] (uploads included), [Toolbar] renders the loading screen
    or the welcome logo. *)
Theorem no_export_before_document (cs : list call) :
  existsb is_switch cs = false ->
  Toolbar (run cs initial) <> Bar /\ handleExportJSON (run cs initial) = None.
Proof.
  intros H.
  assert (Hnull : currentFile (run cs initial) = VNull).
  { change VNull with (currentFile initial). revert H. generalize initial.
    induction cs as [|c cs IH]; intros s H; [reflexivity|].
    cbn in H. apply orb_false_elim in H as [Hc Hcs].
    rewrite run_cons, IH by exact Hcs. now apply invoke_currentFile. }
  unfold Toolbar, handleExportJSON. rewrite Hnull. cbn.
  split; [|reflexivity]. destruct (to_boolean _); discriminate.
Qed.

Lemma no_export_before_document_witness :
  let cs := [SetLoading (VBool true);
             UploadFile (pdf "report.pdf") (mkEnv "0.4fzyo82mvyr" "2025-11-29T10:15:30.000Z");
             SetLoading (VBool false)] in
  existsb is_switch cs = false /\
  Toolbar (run cs initial) <> Bar /\ handleExportJSON (run cs initial) = None.
Proof.
  split; [reflexivity |].
  apply (no_export_before_document
           [SetLoading (VBool true);
            UploadFile (pdf "report.pdf") (mkEnv "0.4fzyo82mvyr" "2025-11-29T10:15:30.000Z");
            SetLoading (VBool false)]).
  reflexivity.
Defined.

(** X19: whenever the toolbar shows the bar, the export handler does produce
    the download, and it is the current file under the name
    [document_data.json]; right after [addSession(fileId, data)] this holds
    exactly when the store is not loading and [data] is truthy, and the
    download is then [data]. *)
Theorem export_follows_current_file (s : state) (key d : value) :
  (Toolbar s = Bar ->
   handleExportJSON s = Some ("document_data.json", currentFile s)) /\
  (let s' := final (addSession key d s) in
   Toolbar s' = (if to_boolean (isLoading s) then LoadingScreen
                 else if to_boolean d then Bar else Welcome) /\
   handleExportJSON s' = (if to_boolean d then Some ("document_data.json", d)
                          else None)).
Proof.
  split.
  - unfold Toolbar, handleExportJSON.
    destruct (to_boolean (isLoading s)); [discriminate|].
    destruct (to_boolean (currentFile s)); [reflexivity | discriminate].
  - unfold Toolbar, handleExportJSON. open_state s.
    destruct (to_boolean d); split; reflexivity.
Qed.

Lemma export_follows_current_file_witness :
  let s := final (addSession (VStr "4fzyo82") (doc 1) initial) in
  Toolbar s = Bar /\
  handleExportJSON s = Some ("document_data.json", currentFile s).
Proof.
  split; [reflexivity |].
  apply (proj1 (export_follows_current_file
                  (final (addSession (VStr "4fzyo82") (doc 1) initial))
                  VNull VNull)).
  reflexivity.
Defined.

(** ** The image list *)

Lemma flatMap_all (l : list ImagesViewer.json) :
  forallb ImagesViewer.has_images l = true ->
  ImagesViewer.flatMap ImagesViewer.page_images l =
    Normal (flat_map
              (fun p => map (fun img => ImagesViewer.mkImage img (ImagesViewer.lookup p "page"))
                            (ImagesViewer.images_of p))
              l).
Proof.
  induction l as [|p l IH]; [reflexivity|].
  cbn [forallb]. intros H. apply andb_prop in H as [Hp Hl].
  cbn [ImagesViewer.flatMap flat_map]. rewrite (IH Hl).
  unfold ImagesViewer.page_images, ImagesViewer.get_prop, ImagesViewer.images_of.
  destruct p; try discriminate.
  unfold ImagesViewer.has_images in Hp. cbn [ImagesViewer.is_nullish].
  destruct (ImagesViewer.lookup (ImagesViewer.JObj props) "images");
    try discriminate.
  reflexivity.
Qed.

Lemma flatMap_some_bad (l : list ImagesViewer.json) :
  forallb ImagesViewer.has_images l = false ->
  ImagesViewer.flatMap ImagesViewer.page_images l = Abrupt TypeError.
Proof.
  induction l as [|p l IH]; [discriminate|].
  cbn [forallb ImagesViewer.flatMap]. intros H.
  destruct (ImagesViewer.has_images p) eqn:Hp.
  - cbn in H. rewrite (IH H).
    destruct (ImagesViewer.page_images p) as [xs|[]]; reflexivity.
  - unfold ImagesViewer.page_images, ImagesViewer.get_prop.
    destruct p; try reflexivity.
    unfold ImagesViewer.has_images in Hp. cbn [ImagesViewer.is_nullish].
    destruct (ImagesViewer.lookup (ImagesViewer.JObj props) "images");
      try discriminate; reflexivity.
Qed.

Lemma pages_array_not_nullish (cf : ImagesViewer.json) (l : list ImagesViewer.json) :
  ImagesViewer.lookup cf "pages" = ImagesViewer.JArr l ->
  ImagesViewer.is_nullish cf = false.
Proof. destruct cf; cbn; try discriminate; reflexivity. Qed.

Lemma images_pages_array (cf : ImagesViewer.json) (l : list ImagesViewer.json) :
  ImagesViewer.lookup cf "pages" = ImagesViewer.JArr l ->
  ImagesViewer.images cf = ImagesViewer.flatMap ImagesViewer.page_images l.
Proof.
  intros Hpages. unfold ImagesViewer.images.
  now rewrite (pages_array_not_nullish _ _ Hpages), Hpages.
Qed.

(** X20: without a document ([null] or [undefined]) or without [pages] in it,
    the image list is empty and nothing is thrown: the viewer shows
    "No images found". *)
Theorem images_without_pages (cf : ImagesViewer.json) :
  ImagesViewer.is_nullish cf
    || ImagesViewer.is_nullish (ImagesViewer.lookup cf "pages") = true ->
  ImagesViewer.images cf = Normal [] /\
  ImagesViewer.shows_empty cf = Normal true.
Proof.
  intros H. unfold ImagesViewer.shows_empty, ImagesViewer.images.
  destruct (ImagesViewer.is_nullish cf); [split; reflexivity|].
  cbn in H. rewrite H. split; reflexivity.
Qed.

Lemma images_without_pages_witness :
  ImagesViewer.is_nullish (ImagesViewer.JObj [("title", ImagesViewer.JStr "t")])
    || ImagesViewer.is_nullish
         (ImagesViewer.lookup (ImagesViewer.JObj [("title", ImagesViewer.JStr "t")]) "pages")
    = true /\
  ImagesViewer.images (ImagesViewer.JObj [("title", ImagesViewer.JStr "t")]) = Normal [] /\
  ImagesViewer.shows_empty (ImagesViewer.JObj [("title", ImagesViewer.JStr "t")])
    = Normal true.
Proof.
  split; [reflexivity |].
  apply (images_without_pages (ImagesViewer.JObj [("title", ImagesViewer.JStr "t")])).
  reflexivity.
Defined.

(** X21: when [pages] is an array, the image list is computed without an
    exception exactly when every page is an object whose [images] is an
    array.  It is then the images of all pages in page order, each paired
    with the [page] of the page it comes from; otherwise a [TypeError] is
    thrown, even if only one page lacks its [images]. *)
Theorem images_of_pages (cf : ImagesViewer.json) (l : list ImagesViewer.json) :
  ImagesViewer.lookup cf "pages" = ImagesViewer.JArr l ->
  ImagesViewer.images cf =
    if forallb ImagesViewer.has_images l
    then Normal (flat_map
                   (fun p => map (fun img => ImagesViewer.mkImage img
                                               (ImagesViewer.lookup p "page"))
                                 (ImagesViewer.images_of p))
                   l)
    else Abrupt TypeError.
Proof.
  intros Hpages. rewrite (images_pages_array _ _ Hpages).
  destruct (forallb ImagesViewer.has_images l) eqn:E.
  - now apply flatMap_all.
  - now apply flatMap_some_bad.
Qed.

Lemma images_of_pages_witness :
  let good := ImagesViewer.JObj [("page", ImagesViewer.JNum 1);
                                 ("images", ImagesViewer.JArr [ImagesViewer.JStr "/img/a.png"])] in
  let bad := ImagesViewer.JObj [("page", ImagesViewer.JNum 2)] in
  let cf := ImagesViewer.JObj [("pages", ImagesViewer.JArr [good; bad])] in
  ImagesViewer.lookup cf "pages" = ImagesViewer.JArr [good; bad] /\
  ImagesViewer.images cf = Abrupt TypeError.
Proof.
  intros good bad cf. split; [reflexivity |].
  apply (images_of_pages cf [good; bad]). reflexivity.
Defined.

Lemma has_images_entries (entries : list (Z * list string)) :
  forallb ImagesViewer.has_images (map ImagesViewer.page_entry entries) = true.
Proof. induction entries as [|e es IH]; [reflexivity | exact IH]. Qed.

(** X22: for a document shaped [{ pages: [{ page, images }, ...] }] the image
    list never throws; it has one entry per image, in order, carrying the
    image path and its page number, so its length is the total number of
    images, and "No images found" is shown exactly when every page has an
    empty [images]. *)
Theorem images_of_document (entries : list (Z * list string)) :
  ImagesViewer.images (ImagesViewer.document entries) =
    Normal (flat_map
              (fun e => map (fun i => ImagesViewer.mkImage (ImagesViewer.JStr i)
                                        (ImagesViewer.JNum (fst e)))
                            (snd e))
              entries) /\
  ImagesViewer.shows_empty (ImagesViewer.document entries) =
    Normal (forallb (fun e => Nat.eqb (length (snd e)) 0) entries).
Proof.
  assert (H : ImagesViewer.images (ImagesViewer.document entries) =
    Normal (flat_map
              (fun e => map (fun i => ImagesViewer.mkImage (ImagesViewer.JStr i)
                                        (ImagesViewer.JNum (fst e)))
                            (snd e))
              entries)).
  { rewrite (images_pages_array (ImagesViewer.document entries)
               (map ImagesViewer.page_entry entries) eq_refl),
      (flatMap_all _ (has_images_entries entries)).
    f_equal. induction entries as [|[n imgs] es IH]; [reflexivity|].
    cbn [map flat_map]. rewrite IH. f_equal.
    unfold ImagesViewer.images_of. cbn. now rewrite map_map. }
  split; [exact H|].
  unfold ImagesViewer.shows_empty. rewrite H. f_equal.
  clear H. induction entries as [|[n imgs] es IH]; [reflexivity|].
  cbn [flat_map forallb fst snd]. rewrite length_app, length_map.
  destruct imgs as [|i imgs]; [exact IH | reflexivity].
Qed.

(** ** The earlier revision *)

Lemma Rev0_run_cons (c : call) (cs : list call) (s : Rev0.state) :
  Rev0.run (c :: cs) s = Rev0.run cs (Rev0.invoke c s).
Proof. reflexivity. Qed.

Lemma Rev0_invoke_page (c : call) (s : Rev0.state) :
  is_setCurrentPage c = false ->
  Rev0.currentPage (Rev0.invoke c s) = Rev0.currentPage s.
Proof.
  destruct c; try discriminate; intros _; try reflexivity.
  - cbn. unfold Rev0.uploadFile. destruct (get_name file); reflexivity.
  - cbn. unfold Rev0.loadSession. destruct (find _ _); reflexivity.
Qed.

(** X23: in the earlier revision nothing but [setCurrentPage] writes
    [currentPage]: [addSession], [loadSession] and [setCurrentFile] switch the
    document and keep the page of the previous one. *)
Theorem Rev0_switch_keeps_page (cs : list call) (s : Rev0.state) :
  existsb is_setCurrentPage cs = false ->
  Rev0.currentPage (Rev0.run cs s) = Rev0.currentPage s.
Proof.
  revert s. induction cs as [|c cs IH]; intros s H; [reflexivity|].
  cbn in H. apply orb_false_elim in H as [Hc Hcs].
  rewrite Rev0_run_cons, IH by exact Hcs. now apply Rev0_invoke_page.
Qed.

Lemma Rev0_switch_keeps_page_witness :
  let s := Rev0.setCurrentPage (VNum 5) Rev0.initial in
  let cs := [AddSession (VStr "4fzyo82") (doc 1); SetCurrentFile (doc 2);
             LoadSession (VStr "4fzyo82")] in
  existsb is_setCurrentPage cs = false /\
  Rev0.currentFile (Rev0.run cs s) = doc 1 /\
  Rev0.currentPage (Rev0.run cs s) = VNum 5.
Proof.
  intros s cs. split; [reflexivity | split; [reflexivity |]].
  apply (Rev0_switch_keeps_page cs s). reflexivity.
Defined.

Lemma Rev0_invoke_agrees (c : call) (s : state) (s0 : Rev0.state) :
  Rev0.shared c = true ->
  but_page s0 = but_page (earlier_fields s) ->
  but_page (Rev0.invoke c s0) = but_page (earlier_fields (final (invoke c s))).
Proof.
  destruct s, s0. unfold but_page, earlier_fields. cbn.
  intros Hc [= -> -> -> -> -> ->].
  destruct c; try discriminate; cbn; try reflexivity.
  unfold Rev0.loadSession, loadSession, bind, get. cbn.
  destruct (find _ _); reflexivity.
Qed.

(** X24: the current store differs from the earlier revision in the page
    only: run the same calls (of the operations both have, uploads apart) on
    both, and the tab, the files, the sessions, the current file, the sidebar
    and the selected node come out the same. *)
Theorem revisions_agree_but_page (cs : list call) (s : state) :
  forallb Rev0.shared cs = true ->
  but_page (Rev0.run cs (earlier_fields s)) = but_page (earlier_fields (run cs s)).
Proof.
  assert (H0 : but_page (earlier_fields s) = but_page (earlier_fields s))
    by reflexivity.
  revert H0. generalize (earlier_fields s) at 1 3. revert s.
  induction cs as [|c cs IH]; intros s s0 H0 H; [exact H0|].
  cbn in H. apply andb_prop in H as [Hc Hcs].
  rewrite Rev0_run_cons, run_cons. apply IH; [|exact Hcs].
  now apply Rev0_invoke_agrees.
Qed.

Lemma revisions_agree_but_page_witness :
  let cs := [AddSession (VStr "4fzyo82") (doc 1); SetCurrentPage (VNum 5);
             ToggleSidebar; LoadSession (VStr "4fzyo82")] in
  forallb Rev0.shared cs = true /\
  but_page (Rev0.run cs (earlier_fields initial))
    = but_page (earlier_fields (run cs initial)) /\
  Rev0.currentPage (Rev0.run cs (earlier_fields initial)) = VNum 5 /\
  currentPage (run cs initial) = VNum 1.
Proof.
  intros cs. split; [reflexivity |].
  split; [apply (revisions_agree_but_page cs initial); reflexivity |].
  split; reflexivity.
Defined.
